(** * Analytics interceptor: response capture wrapper and telemetry pipeline

    Shallow embedding of [plugins/interceptors/analytics/analytics.go].

    Go strings are byte sequences and are modelled as [string]; [[]byte] is
    [list Byte.byte]; Go's [int] and [int64] values that are only stored and
    compared are [Z].  An [http.Header] is a [gmap string (list string)].
    Effects are explicit: a response sink is a state machine behind the
    [ResponseWriter] interface, a downstream handler is a program over that
    interface, and the goroutine started by [go a.sendToGA(..)] acts on a
    [World] made of the sink, the outbound network and the log. *)

From Stdlib Require Import ZArith Ascii String List.
From Stdlib.Strings Require Import Byte.
From stdpp Require Import base option list strings pretty gmap.

Import ListNotations.
Local Open Scope string_scope.
Local Open Scope Z_scope.

(** ** Go runtime values used by the plugin *)

Definition bytes := list Byte.byte.

Definition error := string.

(** [[]byte(s)] for a string literal. *)
Definition bytes_of (s : string) : bytes := list_byte_of_string s.

(** [string(b)]. *)
Definition string_of (b : bytes) : string := string_of_list_byte b.

Module strings.

(** [strings.HasPrefix]. *)
Fixpoint HasPrefix (s p : string) : bool :=
  match p, s with
  | EmptyString, _ => true
  | String c p', String d s' => if Ascii.eqb c d then HasPrefix s' p' else false
  | String _ _, EmptyString => false
  end.

(** Worker of [Split] for a non-empty separator: [skip] counts the bytes of
    a separator occurrence still to be dropped, [cur] is the piece being
    collected. *)
Fixpoint splitFrom (sep : string) (skip : nat) (cur : string) (s : string)
  : list string :=
  match s with
  | EmptyString => [cur]
  | String c s' =>
      match skip with
      | S k => splitFrom sep k cur s'
      | O =>
          if HasPrefix s sep
          then cur :: splitFrom sep (Nat.pred (String.length sep)) EmptyString s'
          else splitFrom sep O (cur ++ String c EmptyString) s'
      end
  end.

(** [strings.Split(s, sep)].  The program only passes the one-byte
    separators [","] and [":"]; with an empty separator Go explodes [s]
    into its UTF-8 sequences, which is rendered here byte by byte. *)
Definition Split (s sep : string) : list string :=
  match sep with
  | EmptyString => map (fun c => String c EmptyString) (list_ascii_of_string s)
  | _ => splitFrom sep O EmptyString s
  end.

End strings.

(** [xs[0]] on the result of [strings.Split].  Go panics on an empty slice;
    [Split_cons] below shows that a non-empty separator never produces one,
    so the default is never returned. *)
Definition index0 (xs : list string) : string :=
  match xs with
  | x :: _ => x
  | [] => EmptyString
  end.

(** ** net/textproto and net/http headers *)

Module textproto.

Definition isLower (c : ascii) : bool :=
  (97 <=? nat_of_ascii c)%nat && (nat_of_ascii c <=? 122)%nat.

Definition isUpper (c : ascii) : bool :=
  (65 <=? nat_of_ascii c)%nat && (nat_of_ascii c <=? 90)%nat.

Definition isDigit (c : ascii) : bool :=
  (48 <=? nat_of_ascii c)%nat && (nat_of_ascii c <=? 57)%nat.

(** [validHeaderFieldByte]: the token characters of RFC 7230. *)
Definition validHeaderFieldByte (c : ascii) : bool :=
  isLower c || isUpper c || isDigit c ||
  existsb (Ascii.eqb c) (list_ascii_of_string "!#$%&'*+-.^_`|~").

Definition toUpper (c : ascii) : ascii :=
  if isLower c then ascii_of_nat (nat_of_ascii c - 32) else c.

Definition toLower (c : ascii) : ascii :=
  if isUpper c then ascii_of_nat (nat_of_ascii c + 32) else c.

(** The case-folding pass: the first letter and every letter after a
    hyphen are upper-cased, the others lower-cased. *)
Fixpoint canonicalize (upper : bool) (s : string) : string :=
  match s with
  | EmptyString => EmptyString
  | String c s' =>
      String (if upper then toUpper c else toLower c)
             (canonicalize (Ascii.eqb c "-"%char) s')
  end.

(** [textproto.CanonicalMIMEHeaderKey]: a key holding a byte that is not a
    token character is returned unchanged. *)
Definition CanonicalMIMEHeaderKey (s : string) : string :=
  if forallb validHeaderFieldByte (list_ascii_of_string s)
  then canonicalize true s
  else s.

End textproto.

Module http.

Definition StatusOK : Z := 200.
Definition StatusNoContent : Z := 204.

(** [http.Header.Get]: the first value stored under the canonical form of
    [key], or the empty string. *)
Definition Header_Get (h : gmap string (list string)) (key : string) : string :=
  match h !! textproto.CanonicalMIMEHeaderKey key with
  | Some (v :: _) => v
  | _ => EmptyString
  end.

(** [http.Header.Set]. *)
Definition Header_Set (h : gmap string (list string)) (key value : string)
  : gmap string (list string) :=
  <[textproto.CanonicalMIMEHeaderKey key := [value]]> h.

End http.

(** ** io readers *)

(** An [io.Reader] seen as the finite stream it delivers: successive
    chunks, ended by [io.EOF] or by a read error. *)
Inductive Reader : Type :=
| EOF
| Fail (e : error)
| Chunk (b : bytes) (rest : Reader).

(** [ioutil.ReadAll] / [io.ReadAll]: the bytes read before the stream
    ended, and the error that ended it ([None] for [io.EOF]). *)
Fixpoint ReadAll (rd : Reader) : bytes * option error :=
  match rd with
  | EOF => ([], None)
  | Fail e => ([], Some e)
  | Chunk b rest => let '(d, e) := ReadAll rest in ((b ++ d)%list, e)
  end.

(** [ioutil.NopCloser(bytes.NewBuffer(data))]. *)
Definition NewBuffer (data : bytes) : Reader :=
  match data with
  | [] => EOF
  | _ => Chunk data EOF
  end.

(** ** Requests and cookies *)

Record Cookie := mkCookie { Name : string; Value : string }.

Record Request := mkRequest {
  Method : string;
  URL_Path : string;
  Header : gmap string (list string);
  RemoteAddr : string;
  Body : option Reader
}.

(** The assignment [r.Body = b]. *)
Definition setBody (r : Request) (b : option Reader) : Request :=
  {| Method := Method r; URL_Path := URL_Path r; Header := Header r;
     RemoteAddr := RemoteAddr r; Body := b |}.

(** [r.UserAgent()]. *)
Definition UserAgent (r : Request) : string :=
  http.Header_Get (Header r) "User-Agent".

(** ** Values handed to encoding/json *)

(** The dynamic values the plugin builds: [map[string]interface{}],
    [[]map[string]interface{}], strings and integers. *)
#[local] Set Warnings "-register-all".
Inductive value : Type :=
| VString (s : string)
| VInt (n : Z)
| VMap (m : list (string * value))
| VSlice (l : list value).

(** ** Outbound HTTP *)

Record OutRequest := mkOutRequest {
  oMethod : string;
  oURL : string;
  oHeader : gmap string (list string);
  oBody : bytes
}.

Record Response := mkResponse {
  StatusCode : Z;
  RespBody : Reader
}.

(** The library calls whose outcome the plugin branches on.  They are kept
    abstract: every result about the plugin holds for any behaviour of the
    JSON encoder, URL parser, cookie parser and transport. *)
Class Runtime := {
  (** [json.Marshal] *)
  json_Marshal : value -> bytes + error;
  (** the verdict of [url.Parse] inside [http.NewRequest] *)
  url_Parse : string -> option error;
  (** [(&http.Client{Timeout: 5 * time.Second}).Do] *)
  client_Do : OutRequest -> Response + error;
  (** net/http's [readCookies(h, filter)] *)
  readCookies : gmap string (list string) -> string -> list Cookie
}.

(** ** zerolog records *)

Inductive Level := InfoLevel | ErrorLevel.

Inductive LogField :=
| Str (k v : string)
| Int (k : string) (n : Z)
| Err (e : error).

Record LogEntry := mkLog {
  level : Level;
  fields : list LogField;
  message : string
}.

(** ** The response sink interface *)

(** [http.ResponseWriter], over the state [S] of the object behind it.
    [rwWrite] returns the new state with Go's [(int, error)]. *)
Class ResponseWriter (S : Type) := {
  rwHeader : S -> gmap string (list string);
  rwSetHeader : S -> string -> string -> S;
  rwWrite : S -> bytes -> S * (Z * option error);
  rwWriteHeader : S -> Z -> S
}.

(** What a handler does with the [http.ResponseWriter] it is given: a
    finite tree of interface calls, each continuation receiving what the
    call returned. *)
Inductive HandlerProg : Type :=
| Return
| CallHeaderGet (k : gmap string (list string) -> HandlerProg)
| CallHeaderSet (key val : string) (rest : HandlerProg)
| CallWriteHeader (code : Z) (rest : HandlerProg)
| CallWrite (b : bytes) (k : Z * option error -> HandlerProg).

(** An [http.Handler]: [ServeHTTP(w, r)] for the request [r], as a client
    of [w].  As net/http requires of handlers, it does not modify the
    request apart from consuming its body. *)
Definition Handler_t := Request -> HandlerProg.

(** Running a handler program against a writer in state [s]. *)
Fixpoint run {S : Type} `{ResponseWriter S} (p : HandlerProg) (s : S) : S :=
  match p with
  | Return => s
  | CallHeaderGet k => run (k (rwHeader s)) s
  | CallHeaderSet key val rest => run rest (rwSetHeader s key val)
  | CallWriteHeader code rest => run rest (rwWriteHeader s code)
  | CallWrite b k => let '(s', res) := rwWrite s b in run (k res) s'
  end.

(** The interface calls, as data, for reasoning about call sequences. *)
Inductive Call :=
| WriteHeaderCall (code : Z)
| WriteCall (b : bytes)
| SetHeaderCall (key val : string).

Definition call {S : Type} `{ResponseWriter S} (s : S) (c : Call) : S :=
  match c with
  | WriteHeaderCall code => rwWriteHeader s code
  | WriteCall b => fst (rwWrite s b)
  | SetHeaderCall key val => rwSetHeader s key val
  end.

Definition calls {S : Type} `{ResponseWriter S} (cs : list Call) (s : S) : S :=
  fold_left call cs s.

(** The calls a handler program issues when run against [s], in order. *)
Fixpoint trace {S : Type} `{ResponseWriter S} (p : HandlerProg) (s : S) : list Call :=
  match p with
  | Return => []
  | CallHeaderGet k => trace (k (rwHeader s)) s
  | CallHeaderSet key val rest =>
      SetHeaderCall key val :: trace rest (rwSetHeader s key val)
  | CallWriteHeader code rest =>
      WriteHeaderCall code :: trace rest (rwWriteHeader s code)
  | CallWrite b k =>
      let '(s', res) := rwWrite s b in WriteCall b :: trace (k res) s'
  end.

(** ** The plugin *)

(** [type Analytics struct]. *)
Record Analytics := mkAnalytics {
  TrackingID : string;
  Enabled : bool;
  EndpointURL : string
}.

(** [type responseWriter struct]: the embedded [http.ResponseWriter] (the
    state of the sink behind it), the captured status code and the capture
    buffer. *)
Record responseWriter (S : Type) := mkResponseWriter {
  inner : S;
  statusCode : Z;
  body : bytes
}.
Arguments mkResponseWriter {S}.
Arguments inner {S}.
Arguments statusCode {S}.
Arguments body {S}.

(** [func (rw *responseWriter) WriteHeader(code int)]. *)
Definition responseWriter_WriteHeader {S : Type} `{ResponseWriter S}
  (rw : responseWriter S) (code : Z) : responseWriter S :=
  let rw := mkResponseWriter (inner rw) code (body rw) in
  mkResponseWriter (rwWriteHeader (inner rw) code) (statusCode rw) (body rw).

(** [func (rw *responseWriter) Write(b []byte) (int, error)]. *)
Definition responseWriter_Write {S : Type} `{ResponseWriter S}
  (rw : responseWriter S) (b : bytes) : responseWriter S * (Z * option error) :=
  let rw := mkResponseWriter (inner rw) (statusCode rw) (body rw ++ b)%list in
  let '(s', res) := rwWrite (inner rw) b in
  (mkResponseWriter s' (statusCode rw) (body rw), res).

(** [*responseWriter] implements [http.ResponseWriter]; [Header] is the
    method promoted from the embedded field. *)
#[export] Instance responseWriter_ResponseWriter {S : Type} `{ResponseWriter S}
  : ResponseWriter (responseWriter S) := {|
  rwHeader rw := rwHeader (inner rw);
  rwSetHeader rw key val :=
    mkResponseWriter (rwSetHeader (inner rw) key val) (statusCode rw) (body rw);
  rwWrite := responseWriter_Write;
  rwWriteHeader := responseWriter_WriteHeader
|}.

(** What one request and its dispatch act on. *)
Record World (S : Type) := mkWorld {
  sink : S;
  outbound : list OutRequest;
  logs : list LogEntry
}.
Arguments mkWorld {S}.
Arguments sink {S}.
Arguments outbound {S}.
Arguments logs {S}.

Definition logged {S : Type} (w : World S) (e : LogEntry) : World S :=
  mkWorld (sink w) (outbound w) (logs w ++ [e])%list.

Definition sent {S : Type} (w : World S) (q : OutRequest) : World S :=
  mkWorld (sink w) (outbound w ++ [q])%list (logs w).

(** The placeholder the source appends as API secret. *)
Definition apiSecret : string := "YOUR_API_SECRET".

Definition defaultEndpoint : string :=
  "https://www.google-analytics.com/mp/collect".

(** [time.Duration.Milliseconds]: nanoseconds to whole milliseconds,
    Go's integer division truncating toward zero. *)
Definition Milliseconds (d : Z) : Z := Z.quot d 1000000.

(** What serving one request leaves behind: the world, the goroutines
    started with [go a.sendToGA(eventData)] (receiver and argument), and
    the wrapper after the downstream handler returned, when one was made. *)
Record Served (S : Type) := mkServed {
  world : World S;
  spawned : list (Analytics * value);
  wrapper : option (responseWriter S)
}.
Arguments mkServed {S}.
Arguments world {S}.
Arguments spawned {S}.
Arguments wrapper {S}.

Section Plugin.
Context {E : Runtime}.

(** [http.NewRequest(method, url, bytes.NewBuffer(body))]. *)
Definition http_NewRequest (method url : string) (payload : bytes)
  : OutRequest + error :=
  match url_Parse url with
  | Some e => inr e
  | None => inl (mkOutRequest method url ∅ payload)
  end.

(** [r.Cookie(name)]: the first cookie of that name, or [ErrNoCookie]. *)
Definition Request_Cookie (r : Request) (name : string) : Cookie + error :=
  if String.eqb name ""
  then inr "http: named cookie not present"
  else match readCookies (Header r) name with
       | c :: _ => inl c
       | [] => inr "http: named cookie not present"
       end.

(** The loop of [getIPAddress] over the forwarding headers. *)
Fixpoint forwardedIP (h : gmap string (list string)) (names : list string)
  : option string :=
  match names with
  | [] => None
  | header :: names' =>
      let ip := http.Header_Get h header in
      if negb (String.eqb ip "")
      then Some (index0 (strings.Split ip ","))
      else forwardedIP h names'
  end.

(** [func getIPAddress(r *http.Request) string]. *)
Definition getIPAddress (r : Request) : string :=
  match forwardedIP (Header r) ["X-Forwarded-For"; "X-Real-IP"] with
  | Some ip => ip
  | None => index0 (strings.Split (RemoteAddr r) ":")
  end.

(** [func getClientID(r *http.Request) string]. *)
Definition getClientID (r : Request) : string :=
  match Request_Cookie r "_ga" with
  | inl cookie => Value cookie
  | inr _ => getIPAddress r ++ UserAgent r
  end.

(** [func (a *Analytics) sendToGA(eventData map[string]interface{})]. *)
Definition sendToGA {S : Type} (a : Analytics) (eventData : value)
  (w : World S) : World S :=
  let url := EndpointURL a ++ "?measurement_id=" ++ TrackingID a
             ++ "&api_secret=" ++ apiSecret in
  match json_Marshal eventData with
  | inr err =>
      logged w (mkLog ErrorLevel [Err err] "Failed to marshal analytics data")
  | inl jsonData =>
      match http_NewRequest "POST" url jsonData with
      | inr err =>
          logged w (mkLog ErrorLevel [Err err] "Failed to create analytics request")
      | inl req =>
          let req := mkOutRequest (oMethod req) (oURL req)
                       (http.Header_Set (oHeader req) "Content-Type" "application/json")
                       (oBody req) in
          let w := sent w req in
          match client_Do req with
          | inr err =>
              logged w (mkLog ErrorLevel [Err err] "Failed to send analytics data")
          | inl resp =>
              if negb (StatusCode resp =? http.StatusOK)
                 && negb (StatusCode resp =? http.StatusNoContent)
              then
                let '(body, _) := ReadAll (RespBody resp) in
                logged w (mkLog ErrorLevel
                            [Int "status" (StatusCode resp);
                             Str "response" (string_of body)]
                            "Analytics request failed")
              else w
          end
      end
  end.

(** The [eventData] literal of the handler. *)
Definition eventDataOf (r : Request) (status duration : Z) : value :=
  VMap [("client_id", VString (getClientID r));
        ("events", VSlice [
           VMap [("name", VString "api_request");
                 ("params", VMap [
                    ("path", VString (URL_Path r));
                    ("method", VString (Method r));
                    ("status_code", VInt status);
                    ("response_time_ms", VInt duration);
                    ("user_agent", VString (UserAgent r));
                    ("ip_address", VString (getIPAddress r))])]])].

(** The request as the downstream handler gets it: the body is read to
    its end and replaced by a buffer over the bytes read. *)
Definition restoreBody (r : Request) : Request :=
  match Body r with
  | Some rd =>
      let '(requestBody, _) := ReadAll rd in
      setBody r (Some (NewBuffer requestBody))
  | None => r
  end.

(** The assignment at the top of [Handler()]. *)
Definition withDefaultEndpoint (a : Analytics) : Analytics :=
  if String.eqb (EndpointURL a) ""
  then mkAnalytics (TrackingID a) (Enabled a) defaultEndpoint
  else a.

(** The [http.HandlerFunc] returned by [a.Handler()(next)], applied to the
    sink of [w] and to [r]; [since] is what [time.Since(startTime)] returns
    after the downstream handler. *)
Definition ServeHTTP {S : Type} `{ResponseWriter S}
  (a : Analytics) (next : Handler_t) (r : Request) (since : Z) (w : World S)
  : Served S :=
  if negb (Enabled a) || String.eqb (TrackingID a) ""
  then mkServed (mkWorld (run (next r) (sink w)) (outbound w) (logs w)) [] None
  else
    let wrappedWriter := mkResponseWriter (sink w) http.StatusOK [] in
    let r := restoreBody r in
    let wrappedWriter := run (next r) wrappedWriter in
    let duration := Milliseconds since in
    let eventData := eventDataOf r (statusCode wrappedWriter) duration in
    let w := mkWorld (inner wrappedWriter) (outbound w) (logs w) in
    mkServed
      (logged w (mkLog InfoLevel
                   [Str "path" (URL_Path r);
                    Str "method" (Method r);
                    Int "status" (statusCode wrappedWriter);
                    Int "duration_ms" duration]
                   "Analytics tracking sent"))
      [(a, eventData)]
      (Some wrappedWriter).

(** [a.Handler()(next)] serving one request. *)
Definition Handler {S : Type} `{ResponseWriter S}
  (a : Analytics) (next : Handler_t) (r : Request) (since : Z) (w : World S)
  : Served S :=
  ServeHTTP (withDefaultEndpoint a) next r since w.

(** Running the goroutines a request started. *)
Definition dispatch {S : Type} (gs : list (Analytics * value)) (w : World S)
  : World S :=
  fold_left (fun w g => sendToGA (fst g) (snd g) w) gs w.

(** A request served and its dispatch run to the end, in the schedule
    where the goroutine runs after the handler has returned.  The code
    starts the goroutine before it logs its own record, so the order of
    that record and a record of [sendToGA] is not fixed; the sink, the
    requests sent and the records logged, order apart, are those of every
    schedule. *)
Definition serveAndDispatch {S : Type} `{ResponseWriter S}
  (a : Analytics) (next : Handler_t) (r : Request) (since : Z) (w : World S)
  : World S :=
  let res := Handler a next r since w in
  dispatch (spawned res) (world res).

End Plugin.

(** ** What a call sequence should leave in the wrapper

    The two functions below follow the specification's wording, not the
    code: the status is that of the last [WriteHeader] call, the body the
    concatenation of the written slices. *)

Fixpoint lastStatus (cs : list Call) (current : Z) : Z :=
  match cs with
  | [] => current
  | WriteHeaderCall code :: cs' => lastStatus cs' code
  | _ :: cs' => lastStatus cs' current
  end.

Fixpoint written (cs : list Call) : bytes :=
  match cs with
  | [] => []
  | WriteCall b :: cs' => (b ++ written cs')%list
  | _ :: cs' => written cs'
  end.

(** The wrapper as [ServeHTTP] creates it around sink state [s]. *)
Definition freshWrapper {S : Type} (s : S) : responseWriter S :=
  mkResponseWriter s http.StatusOK [].

(** ** Concrete sinks and runtimes

    Stand-ins for the collaborators, used to evaluate the plugin on
    concrete requests. *)

(** A recording sink in the manner of [httptest.ResponseRecorder]: the
    first [WriteHeader] fixes the code, a [Write] before any [WriteHeader]
    implies 200, and every write is accepted whole. *)
Record Recorder := mkRecorder {
  Code : Z;
  HeaderMap : gmap string (list string);
  Written : bytes;
  wroteHeader : bool
}.

Definition NewRecorder : Recorder := mkRecorder 200 ∅ [] false.

Definition Recorder_WriteHeader (rec : Recorder) (code : Z) : Recorder :=
  if wroteHeader rec then rec
  else mkRecorder code (HeaderMap rec) (Written rec) true.

Definition Recorder_Write (rec : Recorder) (b : bytes)
  : Recorder * (Z * option error) :=
  let rec := Recorder_WriteHeader rec 200 in
  (mkRecorder (Code rec) (HeaderMap rec) (Written rec ++ b)%list (wroteHeader rec),
   (Z.of_nat (length b), None)).

#[export] Instance Recorder_ResponseWriter : ResponseWriter Recorder := {|
  rwHeader := HeaderMap;
  rwSetHeader rec key val :=
    mkRecorder (Code rec) (http.Header_Set (HeaderMap rec) key val)
               (Written rec) (wroteHeader rec);
  rwWrite := Recorder_Write;
  rwWriteHeader := Recorder_WriteHeader
|}.

(** A connection that takes [room] more bytes and then fails: a write that
    does not fit delivers the bytes that do and reports a short write. *)
Record Limited := mkLimited {
  room : nat;
  delivered : bytes
}.

Definition Limited_Write (c : Limited) (b : bytes)
  : Limited * (Z * option error) :=
  if (length b <=? room c)%nat
  then (mkLimited (room c - length b) (delivered c ++ b)%list,
        (Z.of_nat (length b), None))
  else (mkLimited 0 (delivered c ++ take (room c) b)%list,
        (Z.of_nat (room c), Some "short write")).

#[export] Instance Limited_ResponseWriter : ResponseWriter Limited := {|
  rwHeader _ := ∅;
  rwSetHeader c _ _ := c;
  rwWrite := Limited_Write;
  rwWriteHeader c _ := c
|}.

(** Leading and trailing blanks removed. *)
Fixpoint trimLeft (s : string) : string :=
  match s with
  | String c s' => if Ascii.eqb c " "%char then trimLeft s' else s
  | EmptyString => s
  end.

Definition trim (s : string) : string :=
  String.rev (trimLeft (String.rev (trimLeft s))).

(** [name=value] cut at the first [=]. *)
Fixpoint cutEq (name : string) (s : string) : string * string :=
  match s with
  | EmptyString => (String.rev name, EmptyString)
  | String c s' =>
      if Ascii.eqb c "="%char then (String.rev name, s')
      else cutEq (String c name) s'
  end.

(** A cookie parser for well-formed [Cookie: n1=v1; n2=v2] lines. *)
Definition plainCookies (h : gmap string (list string)) (filter : string)
  : list Cookie :=
  let parts :=
    flat_map (fun line => strings.Split line ";") (default [] (h !! "Cookie")) in
  let pairs := map (fun part => cutEq EmptyString (trim part)) parts in
  map (fun nv => mkCookie (fst nv) (snd nv))
      (List.filter (fun nv => String.eqb filter "" || String.eqb (fst nv) filter)
                   pairs).

(** A JSON writer for the event values: fields in the order given, text
    between quotes without escapes. *)
Definition quoted (s : string) : string :=
  String (ascii_of_nat 34) (s ++ String (ascii_of_nat 34) EmptyString).

Fixpoint joined (parts : list string) : string :=
  match parts with
  | [] => EmptyString
  | [x] => x
  | x :: rest => x ++ "," ++ joined rest
  end.

Fixpoint plainJSON (v : value) : string :=
  match v with
  | VString s => quoted s
  | VInt n => pretty n
  | VMap m =>
      "{" ++ joined (map (fun kv => quoted (fst kv) ++ ":" ++ plainJSON (snd kv)) m) ++ "}"
  | VSlice l => "[" ++ joined (map plainJSON l) ++ "]"
  end.

(** A collector answering every request with [status] and [reply]. *)
Definition collector (status : Z) (reply : bytes) : Runtime := {|
  json_Marshal v := inl (bytes_of (plainJSON v));
  url_Parse _ := None;
  client_Do _ := inl (mkResponse status (NewBuffer reply));
  readCookies := plainCookies
|}.

(** A collector that cannot be reached. *)
Definition unreachable : Runtime := {|
  json_Marshal v := inl (bytes_of (plainJSON v));
  url_Parse _ := None;
  client_Do _ := inr "dial tcp: connection refused";
  readCookies := plainCookies
|}.

(** An encoder that rejects every value. *)
Definition unencodable : Runtime := {|
  json_Marshal v := inr "json: unsupported value";
  url_Parse _ := None;
  client_Do _ := inl (mkResponse 200 EOF);
  readCookies := plainCookies
|}.

(** The handler of the repository's test: status 200, then the body. *)
Definition testHandler : Handler_t := fun _ =>
  CallWriteHeader http.StatusOK
    (CallWrite (bytes_of "Test response") (fun _ => Return)).

(** The request of the repository's test. *)
Definition testRequest : Request :=
  mkRequest "GET" "/test-path"
    (http.Header_Set (http.Header_Set ∅ "User-Agent" "Test User Agent")
                     "Cookie" "_ga=test-client-id")
    "192.0.2.1:1234" None.

Definition emptyWorld {S : Type} (s : S) : World S := mkWorld s [] [].

(** The longest prefix of [s] free of [c]: what the specification calls
    the first entry of a list separated by [c]. *)
Fixpoint before (c : ascii) (s : string) : string :=
  match s with
  | EmptyString => EmptyString
  | String d s' => if Ascii.eqb d c then EmptyString else String d (before c s')
  end.

(** The first of the forwarding headers with a non-empty value. *)
Definition forwardedValue (h : gmap string (list string)) : option string :=
  if negb (String.eqb (http.Header_Get h "X-Forwarded-For") "")
  then Some (http.Header_Get h "X-Forwarded-For")
  else if negb (String.eqb (http.Header_Get h "X-Real-IP") "")
       then Some (http.Header_Get h "X-Real-IP")
       else None.

(** Requests of the specification's examples. *)
Definition forwardedRequest : Request :=
  mkRequest "GET" "/v1/activate"
    (http.Header_Set (http.Header_Set ∅ "X-Forwarded-For" "1.2.3.4, 5.6.6.6")
                     "User-Agent" "UA1")
    "10.0.0.7:5123" None.

Definition directRequest : Request :=
  mkRequest "GET" "/v1/activate" ∅ "9.9.9.9:4444" None.

Definition cookieRequest : Request :=
  mkRequest "GET" "/v1/activate"
    (http.Header_Set (http.Header_Set ∅ "X-Forwarded-For" "1.2.3.4, 5.6.6.6")
                     "Cookie" "theme=dark; _ga=abc123")
    "10.0.0.7:5123" None.

(** A client connected over IPv6: net/http writes its address with the
    host in brackets. *)
Definition ipv6Request : Request :=
  mkRequest "GET" "/v1/activate" ∅ "[::1]:8080" None.

(** A downstream handler that answers with the request body, and with
    status 400 when the body cannot be read to its end. *)
Definition echoHandler : Handler_t := fun r =>
  match Body r with
  | Some rd =>
      match ReadAll rd with
      | (data, None) => CallWrite data (fun _ => Return)
      | (_, Some _) => CallWriteHeader 400 Return
      end
  | None => Return
  end.

(** A POST whose body arrives in two chunks. *)
Definition postRequest : Request :=
  mkRequest "POST" "/v1/track"
    (http.Header_Set ∅ "Content-Type" "text/plain") "10.0.0.7:5123"
    (Some (Chunk (bytes_of "hel") (Chunk (bytes_of "lo") EOF))).

(** A POST whose body breaks off after three bytes. *)
Definition brokenRequest : Request :=
  mkRequest "POST" "/v1/track"
    (http.Header_Set ∅ "Content-Type" "text/plain") "10.0.0.7:5123"
    (Some (Chunk (bytes_of "hel") (Fail "unexpected EOF"))).

(** The value the creator registered in [init] returns: [&Analytics{}]. *)
Definition newAnalytics : Analytics := mkAnalytics "" false "".

(** Whether [s] holds no byte [c]. *)
Definition freeOf (c : ascii) (s : string) : bool :=
  forallb (fun d => negb (Ascii.eqb d c)) (list_ascii_of_string s).

(** A runtime whose URL parser rejects every URL. *)
Definition strictURLs : Runtime := {|
  json_Marshal v := inl (bytes_of (plainJSON v));
  url_Parse _ := Some "parse: invalid URL";
  client_Do _ := inl (mkResponse 200 EOF);
  readCookies := plainCookies
|}.

(** Whether the request has no body, or one that reads to its end
    without error. *)
Definition cleanBody (r : Request) : bool :=
  match Body r with
  | None => true
  | Some rd =>
      match snd (ReadAll rd) with
      | None => true
      | Some _ => false
      end
  end.

(** A handler that uses the request body only by reading it: two bodies
    that read alike are served alike. *)
Definition readsWhole (next : Handler_t) : Prop :=
  forall (r : Request) (rd1 rd2 : Reader),
    ReadAll rd1 = ReadAll rd2 ->
    next (setBody r (Some rd1)) = next (setBody r (Some rd2)).

(** * Properties *)

(** ** The capture wrapper *)

Section Wrapper.
Context {S : Type} `{RW : ResponseWriter S}.

Lemma WriteHeader_inner (rw : responseWriter S) (code : Z) :
  inner (responseWriter_WriteHeader rw code) = rwWriteHeader (inner rw) code.
Proof. reflexivity. Qed.

Lemma Write_unfold (rw : responseWriter S) (b : bytes) :
  responseWriter_Write rw b =
  (mkResponseWriter (fst (rwWrite (inner rw) b)) (statusCode rw) (body rw ++ b)%list,
   snd (rwWrite (inner rw) b)).
Proof.
  unfold responseWriter_Write; cbn.
  destruct (rwWrite (inner rw) b) as [s' res]; reflexivity.
Qed.

Lemma run_inner (p : HandlerProg) :
  forall rw : responseWriter S, inner (run p rw) = run p (inner rw).
Proof.
  induction p as [|k IH|key val rest IH|code rest IH|b k IH]; intros rw; cbn.
  - reflexivity.
  - apply IH.
  - rewrite IH; reflexivity.
  - rewrite IH; reflexivity.
  - rewrite Write_unfold.
    destruct (rwWrite (inner rw) b) as [s' res]; cbn. apply IH.
Qed.

Lemma trace_inner (p : HandlerProg) :
  forall rw : responseWriter S, trace p rw = trace p (inner rw).
Proof.
  induction p as [|k IH|key val rest IH|code rest IH|b k IH]; intros rw; cbn.
  - reflexivity.
  - apply IH.
  - rewrite IH; reflexivity.
  - rewrite IH; reflexivity.
  - rewrite Write_unfold.
    destruct (rwWrite (inner rw) b) as [s' res]; cbn. rewrite IH; reflexivity.
Qed.

End Wrapper.

(** A handler program does what its call trace does, whatever the writer. *)
Lemma run_calls {S : Type} `{RW : ResponseWriter S} (p : HandlerProg) :
  forall s : S, run p s = calls (trace p s) s.
Proof.
  induction p as [|k IH|key val rest IH|code rest IH|b k IH]; intros s; cbn.
  - reflexivity.
  - apply IH.
  - rewrite IH; reflexivity.
  - rewrite IH; reflexivity.
  - destruct (rwWrite s b) as [s' res] eqn:Hw; cbn.
    rewrite IH. unfold calls; cbn. rewrite Hw; reflexivity.
Qed.

Lemma calls_app {S : Type} `{RW : ResponseWriter S} (cs1 cs2 : list Call) (s : S) :
  calls (cs1 ++ cs2) s = calls cs2 (calls cs1 s).
Proof. unfold calls; apply fold_left_app. Qed.

Lemma calls_status {S : Type} `{RW : ResponseWriter S} (cs : list Call) :
  forall rw : responseWriter S,
    statusCode (calls cs rw) = lastStatus cs (statusCode rw).
Proof.
  induction cs as [|c cs IH]; intros rw; [reflexivity|].
  change (calls (c :: cs) rw) with (calls cs (call rw c)).
  rewrite IH. destruct c as [code|b|key val]; cbn; try reflexivity.
  rewrite Write_unfold; reflexivity.
Qed.

Lemma calls_body {S : Type} `{RW : ResponseWriter S} (cs : list Call) :
  forall rw : responseWriter S,
    body (calls cs rw) = (body rw ++ written cs)%list.
Proof.
  induction cs as [|c cs IH]; intros rw.
  - cbn. rewrite app_nil_r; reflexivity.
  - change (calls (c :: cs) rw) with (calls cs (call rw c)).
    rewrite IH. destruct c as [code|b|key val]; cbn; try reflexivity.
    rewrite Write_unfold; cbn. rewrite <- app_assoc; reflexivity.
Qed.

(** ** The enabled check and the handler *)

Section Serving.
Context {E : Runtime} {S : Type} `{RW : ResponseWriter S}.

Lemma withDefaultEndpoint_switch (a : Analytics) :
  Enabled (withDefaultEndpoint a) = Enabled a /\
  TrackingID (withDefaultEndpoint a) = TrackingID a.
Proof.
  unfold withDefaultEndpoint.
  destruct (String.eqb (EndpointURL a) ""); split; reflexivity.
Qed.

Lemma tracking_on (a : Analytics) :
  Enabled a = true -> TrackingID a <> "" ->
  negb (Enabled (withDefaultEndpoint a))
  || String.eqb (TrackingID (withDefaultEndpoint a)) "" = false.
Proof.
  intros He Ht. destruct (withDefaultEndpoint_switch a) as [-> ->].
  rewrite He; cbn. apply String.eqb_neq; exact Ht.
Qed.

Lemma tracking_off (a : Analytics) :
  Enabled a = false \/ TrackingID a = "" ->
  negb (Enabled (withDefaultEndpoint a))
  || String.eqb (TrackingID (withDefaultEndpoint a)) "" = true.
Proof.
  intros H. destruct (withDefaultEndpoint_switch a) as [-> ->].
  destruct H as [-> | ->]; [reflexivity|].
  rewrite String.eqb_refl. apply orb_true_r.
Qed.

(** The handler with tracking on, step by step. *)
Lemma Handler_tracking (a : Analytics) (next : Handler_t) (r : Request)
  (since : Z) (w : World S) :
  Enabled a = true -> TrackingID a <> "" ->
  let r' := restoreBody r in
  let rw := run (next r') (freshWrapper (sink w)) in
  Handler a next r since w =
  mkServed
    (logged (mkWorld (inner rw) (outbound w) (logs w))
       (mkLog InfoLevel
          [Str "path" (URL_Path r'); Str "method" (Method r');
           Int "status" (statusCode rw);
           Int "duration_ms" (Milliseconds since)]
          "Analytics tracking sent"))
    [(withDefaultEndpoint a,
      eventDataOf r' (statusCode rw) (Milliseconds since))]
    (Some rw).
Proof.
  intros He Ht. unfold Handler, ServeHTTP.
  rewrite (tracking_on a He Ht). reflexivity.
Qed.

End Serving.

(** A handler that only reads the body is served the restored request
    as it would be the original, when the original body ends cleanly. *)
Lemma next_restoreBody (next : Handler_t) (r : Request) :
  cleanBody r = true -> readsWhole next -> next (restoreBody r) = next r.
Proof.
  intros Hclean Hreads. unfold cleanBody in Hclean. unfold restoreBody.
  destruct r as [m p h addr [rd|]]; cbn [Body] in *; [|reflexivity].
  destruct (ReadAll rd) as [data e] eqn:Hread. cbn [snd] in Hclean.
  destruct e as [e|]; [discriminate|].
  apply (Hreads (mkRequest m p h addr None) (NewBuffer data) rd).
  rewrite Hread. destruct data as [|x data]; [reflexivity|].
  cbn. rewrite app_nil_r. reflexivity.
Qed.

(** C1, as amended: with tracking on, [WriteHeader] hands the sink the very
    code it was given, and [Write] hands the sink the very bytes it was
    given and returns the sink's own count and error; hence a downstream
    handler, using the writer through [Header], [Write] and [WriteHeader],
    issues the same calls and leaves the sink in the same state against the
    wrapper as against the sink.  The response served is the one the
    downstream handler produces on the request with the restored body; it
    is the response of the unwrapped handler on the original request when
    the body is absent or reads to its end without error and the handler
    uses the body only by reading it. *)
Theorem wrapper_transparent
  {E : Runtime} {S : Type} `{RW : ResponseWriter S}
  (a : Analytics) (next : Handler_t) (r : Request) (since : Z) (w : World S) :
  Enabled a = true -> TrackingID a <> "" ->
  (forall (rw : responseWriter S) (code : Z),
      inner (responseWriter_WriteHeader rw code) = rwWriteHeader (inner rw) code) /\
  (forall (rw : responseWriter S) (b : bytes),
      inner (fst (responseWriter_Write rw b)) = fst (rwWrite (inner rw) b) /\
      snd (responseWriter_Write rw b) = snd (rwWrite (inner rw) b)) /\
  (forall (p : HandlerProg) (rw : responseWriter S),
      trace p rw = trace p (inner rw) /\ inner (run p rw) = run p (inner rw)) /\
  sink (world (Handler a next r since w)) = run (next (restoreBody r)) (sink w) /\
  (cleanBody r = true -> readsWhole next ->
   sink (world (Handler a next r since w)) = run (next r) (sink w) /\
   sink (world (Handler a next r since w)) =
     sink (world (Handler (mkAnalytics (TrackingID a) false (EndpointURL a))
                    next r since w))).
Proof.
  intros He Ht.
  assert (sink (world (Handler a next r since w))
          = run (next (restoreBody r)) (sink w)) as Hserved.
  { rewrite (Handler_tracking a next r since w He Ht). cbn.
    rewrite run_inner. reflexivity. }
  split; [|split; [|split; [|split]]].
  - intros rw code. apply WriteHeader_inner.
  - intros rw b. rewrite Write_unfold; split; reflexivity.
  - intros p rw. split; [apply trace_inner | apply run_inner].
  - exact Hserved.
  - intros Hclean Hreads.
    rewrite Hserved, (next_restoreBody next r Hclean Hreads).
    split; [reflexivity|].
    unfold Handler, ServeHTTP.
    rewrite (tracking_off (mkAnalytics (TrackingID a) false (EndpointURL a))
               (or_introl eq_refl)).
    reflexivity.
Qed.

Lemma wrapper_transparent_witness :
  let a := mkAnalytics "G-TEST123" true "" in
  Enabled a = true /\ TrackingID a <> "" /\
  cleanBody postRequest = true /\ readsWhole echoHandler /\
  sink (world (Handler (E := collector 200 []) a echoHandler postRequest
                 51234567 (emptyWorld NewRecorder)))
  = run (echoHandler postRequest) NewRecorder.
Proof.
  intros a.
  assert (readsWhole echoHandler) as Hreads.
  { intros r rd1 rd2 Hsame. unfold echoHandler. cbn [setBody Body].
    rewrite Hsame. reflexivity. }
  split; [reflexivity|]. split; [discriminate|].
  split; [reflexivity|]. split; [exact Hreads|].
  destruct (wrapper_transparent (E := collector 200 []) a echoHandler postRequest
              51234567 (emptyWorld NewRecorder) eq_refl ltac:(discriminate))
    as (_ & _ & _ & _ & Hsame).
  exact (proj1 (Hsame eq_refl Hreads)).
Defined.

(** C1, as first stated, fails: when reading the request body breaks off,
    the handler behind the interceptor is given the bytes read as a body
    that ends cleanly.  The echo handler then answers 200 with those bytes,
    where without the interceptor it answers 400. *)
Lemma wrapper_alters_broken_body_response :
  let a := mkAnalytics "G-TEST123" true "" in
  let wrapped :=
    sink (world (Handler (E := collector 200 []) a echoHandler brokenRequest
                   0 (emptyWorld NewRecorder))) in
  let unwrapped := run (echoHandler brokenRequest) NewRecorder in
  Enabled a = true /\ TrackingID a <> "" /\
  wrapped = mkRecorder 200 ∅ (bytes_of "hel") true /\
  unwrapped = mkRecorder 400 ∅ [] true /\
  wrapped <> unwrapped.
Proof.
  intros a wrapped unwrapped.
  split; [reflexivity|]. split; [discriminate|].
  split; [reflexivity|]. split; [reflexivity|].
  intros Hsame. apply (f_equal Code) in Hsame. discriminate Hsame.
Qed.

(** C2: when [Enabled] is false or [TrackingID] is empty, the downstream
    handler runs on the original request against the original sink, no
    wrapper is made, no goroutine is started, and after the request nothing
    was sent and nothing was logged. *)
Theorem disabled_bypass
  {E : Runtime} {S : Type} `{RW : ResponseWriter S}
  (a : Analytics) (next : Handler_t) (r : Request) (since : Z) (w : World S) :
  Enabled a = false \/ TrackingID a = "" ->
  Handler a next r since w =
    mkServed (mkWorld (run (next r) (sink w)) (outbound w) (logs w)) [] None /\
  serveAndDispatch a next r since w =
    mkWorld (run (next r) (sink w)) (outbound w) (logs w).
Proof.
  intros Hoff.
  assert (Handler a next r since w =
          mkServed (mkWorld (run (next r) (sink w)) (outbound w) (logs w)) [] None)
    as Hserved.
  { unfold Handler, ServeHTTP. rewrite (tracking_off a Hoff). reflexivity. }
  split; [exact Hserved|].
  unfold serveAndDispatch. rewrite Hserved. reflexivity.
Qed.

Lemma disabled_bypass_witness :
  let a := mkAnalytics "G-TEST123" false "" in
  (Enabled a = false \/ TrackingID a = "") /\
  serveAndDispatch (E := collector 500 []) a testHandler testRequest 0
    (emptyWorld NewRecorder)
  = mkWorld (mkRecorder 200 ∅ (bytes_of "Test response") true) [] [].
Proof.
  intros a. split; [left; reflexivity|].
  exact (proj2 (disabled_bypass (E := collector 500 []) a testHandler testRequest 0
                  (emptyWorld NewRecorder) (or_introl eq_refl))).
Defined.

(** C3: on one request's wrapper, after any sequence of calls the status
    code is the code of the last [WriteHeader] call, or 200 when there was
    none, and the buffer is the concatenation of the written slices in call
    order; further calls only append to it.  The same holds of the wrapper
    the handler has made once the downstream handler returned. *)
Theorem capture_invariant
  {E : Runtime} {S : Type} `{RW : ResponseWriter S}
  (a : Analytics) (next : Handler_t) (r : Request) (since : Z) (w : World S)
  (cs more : list Call) :
  Enabled a = true -> TrackingID a <> "" ->
  statusCode (calls cs (freshWrapper (sink w))) = lastStatus cs 200 /\
  body (calls cs (freshWrapper (sink w))) = written cs /\
  body (calls (cs ++ more) (freshWrapper (sink w))) =
    (body (calls cs (freshWrapper (sink w))) ++ written more)%list /\
  exists rw : responseWriter S,
    wrapper (Handler a next r since w) = Some rw /\
    statusCode rw = lastStatus (trace (next (restoreBody r)) (sink w)) 200 /\
    body rw = written (trace (next (restoreBody r)) (sink w)).
Proof.
  intros He Ht. split; [|split; [|split]].
  - apply calls_status.
  - apply (calls_body cs (freshWrapper (sink w))).
  - rewrite calls_app. apply calls_body.
  - rewrite (Handler_tracking a next r since w He Ht). cbn.
    eexists; split; [reflexivity|].
    rewrite run_calls, trace_inner. cbn.
    split; [apply calls_status | apply (calls_body _ (freshWrapper (sink w)))].
Qed.

Lemma capture_invariant_witness :
  let a := mkAnalytics "G-TEST123" true "" in
  Enabled a = true /\ TrackingID a <> "" /\
  exists rw : responseWriter Recorder,
    wrapper (Handler (E := collector 200 []) a testHandler testRequest 0
               (emptyWorld NewRecorder)) = Some rw /\
    statusCode rw = 200 /\ body rw = bytes_of "Test response".
Proof.
  intros a. split; [reflexivity|]. split; [discriminate|].
  destruct (capture_invariant (E := collector 200 []) a testHandler testRequest 0
              (emptyWorld NewRecorder) [] [])
    as (_ & _ & _ & rw & Hw & Hs & Hb); [reflexivity | discriminate |].
  exists rw. split; [exact Hw|]. split; [exact Hs | exact Hb].
Defined.

(** C9: [Write] appends to the capture buffer before it calls the sink, so when
    the sink's write fails the bytes stay in the buffer and the sink's
    count and error come back unchanged; on a connection with room for four
    more bytes the buffer then holds bytes that were never delivered. *)
Theorem write_failure_keeps_capture
  {S : Type} `{RW : ResponseWriter S}
  (rw : responseWriter S) (b : bytes) (s' : S) (n : Z) (e : error) :
  rwWrite (inner rw) b = (s', (n, Some e)) ->
  responseWriter_Write rw b =
    (mkResponseWriter s' (statusCode rw) (body rw ++ b)%list, (n, Some e)) /\
  (let out := responseWriter_Write (freshWrapper (mkLimited 4 []))
                (bytes_of "Test response") in
   body (fst out) = bytes_of "Test response" /\
   delivered (inner (fst out)) = bytes_of "Test" /\
   snd out = (4, Some "short write")).
Proof.
  intros Hw. split.
  - rewrite Write_unfold, Hw. reflexivity.
  - repeat split.
Qed.

Lemma write_failure_keeps_capture_witness :
  let rw := freshWrapper (mkLimited 4 []) in
  rwWrite (inner rw) (bytes_of "Test response")
    = (mkLimited 0 (bytes_of "Test"), (4, Some "short write")) /\
  responseWriter_Write rw (bytes_of "Test response") =
    (mkResponseWriter (mkLimited 0 (bytes_of "Test")) 200
       (bytes_of "Test response"), (4, Some "short write")).
Proof.
  intros rw. split; [reflexivity|].
  apply (write_failure_keeps_capture rw (bytes_of "Test response")
           (mkLimited 0 (bytes_of "Test")) 4 "short write").
  reflexivity.
Defined.

(** ** Deriving the address and the client identifier *)

Lemma splitFrom_cons (sep : string) (s : string) :
  forall (skip : nat) (cur : string), strings.splitFrom sep skip cur s <> [].
Proof.
  induction s as [|c s IH]; intros skip cur; cbn [strings.splitFrom].
  - intros Hnil; discriminate Hnil.
  - destruct skip as [|k]; [|apply IH].
    destruct (strings.HasPrefix (String c s) sep);
      [intros Hnil; discriminate Hnil | apply IH].
Qed.

(** With a non-empty separator [Split] returns at least one piece, so the
    index expression [[0]] never panics. *)
Lemma Split_cons (s sep : string) :
  sep <> "" -> strings.Split s sep <> [].
Proof.
  intros Hsep. destruct sep as [|c sep]; [contradiction|].
  apply splitFrom_cons.
Qed.

Lemma string_app_assoc (s1 s2 s3 : string) :
  (s1 ++ s2) ++ s3 = s1 ++ (s2 ++ s3).
Proof.
  induction s1 as [|c s1 IH]; [reflexivity|].
  change (String c ((s1 ++ s2) ++ s3) = String c (s1 ++ (s2 ++ s3))).
  rewrite IH; reflexivity.
Qed.

Lemma string_app_nil_r (s : string) : s ++ "" = s.
Proof.
  induction s as [|c s IH]; [reflexivity|].
  change (String c (s ++ "") = String c s). rewrite IH; reflexivity.
Qed.

Lemma splitFrom_first (c : ascii) (s : string) :
  forall cur : string,
    index0 (strings.splitFrom (String c "") 0 cur s) = cur ++ before c s.
Proof.
  induction s as [|d s IH]; intros cur.
  - cbn. rewrite string_app_nil_r; reflexivity.
  - cbn [strings.splitFrom strings.HasPrefix before].
    rewrite (Ascii.eqb_sym c d).
    destruct (Ascii.eqb d c).
    + assert (strings.HasPrefix s "" = true) as -> by (destruct s; reflexivity).
      cbn [index0]. rewrite string_app_nil_r; reflexivity.
    + rewrite IH, string_app_assoc. reflexivity.
Qed.

(** The first piece of a split at a one-byte separator is the text before
    the first occurrence of that byte. *)
Lemma Split_first (c : ascii) (s : string) :
  index0 (strings.Split s (String c "")) = before c s.
Proof. unfold strings.Split. apply splitFrom_first. Qed.

Lemma getIPAddress_unfold (r : Request) :
  getIPAddress r =
  match forwardedValue (Header r) with
  | Some v => before ","%char v
  | None => before ":"%char (RemoteAddr r)
  end.
Proof.
  unfold getIPAddress, forwardedValue; cbn.
  destruct (negb (String.eqb (http.Header_Get (Header r) "X-Forwarded-For") ""));
    [apply (Split_first ","%char)|].
  destruct (negb (String.eqb (http.Header_Get (Header r) "X-Real-IP") ""));
    [apply (Split_first ","%char)|].
  apply (Split_first ":"%char).
Qed.

(** C4: [getIPAddress] takes the first non-empty of [X-Forwarded-For] and
    [X-Real-IP], in that order, and returns the text before its first
    comma; with neither it returns the text of the remote address before
    its first colon.  That strips the port of ["9.9.9.9:4444"]; of the IPv6
    remote address ["[::1]:8080"] it leaves only the opening bracket. *)
Theorem getIPAddress_first_colon :
  (forall r : Request,
      getIPAddress r =
      match forwardedValue (Header r) with
      | Some v => before ","%char v
      | None => before ":"%char (RemoteAddr r)
      end) /\
  getIPAddress forwardedRequest = "1.2.3.4" /\
  getIPAddress directRequest = "9.9.9.9" /\
  getIPAddress ipv6Request = "[".
Proof.
  split; [exact getIPAddress_unfold|]. repeat split.
Qed.

(** C5: [getClientID] returns the value of the first [_ga] cookie the
    request carries, whatever its address and user agent, and without such
    a cookie the derived address followed by the user agent. *)
Theorem getClientID_prefers_cookie {E : Runtime} (r : Request) :
  getClientID r =
    match readCookies (Header r) "_ga" with
    | c :: _ => Value c
    | [] => getIPAddress r ++ UserAgent r
    end /\
  getClientID (E := collector 200 []) cookieRequest = "abc123" /\
  getClientID (E := collector 200 []) forwardedRequest = "1.2.3.4UA1".
Proof.
  split; [|split; reflexivity].
  unfold getClientID, Request_Cookie.
  change (String.eqb "_ga" "") with false. cbv iota.
  destruct (readCookies (Header r) "_ga"); reflexivity.
Qed.

(** ** Dispatch *)

Lemma contentTypeHeader :
  http.Header_Set ∅ "Content-Type" "application/json"
  = {[ "Content-Type" := ["application/json"] ]}.
Proof. reflexivity. Qed.

Section Dispatch.
Context {E : Runtime} {S : Type}.

Lemma sendToGA_sink (a : Analytics) (eventData : value) (w : World S) :
  sink (sendToGA a eventData w) = sink w.
Proof.
  unfold sendToGA, http_NewRequest.
  destruct (json_Marshal eventData) as [js|err]; [|reflexivity].
  destruct (url_Parse _) as [err|]; [reflexivity|]. cbn.
  destruct (client_Do _) as [resp|err]; [|reflexivity].
  destruct (negb _ && negb _); [|reflexivity].
  destruct (ReadAll (RespBody resp)); reflexivity.
Qed.

Lemma dispatch_sink (gs : list (Analytics * value)) :
  forall w : World S, sink (dispatch gs w) = sink w.
Proof.
  induction gs as [|g gs IH]; intros w; [reflexivity|].
  change (dispatch (g :: gs) w) with (dispatch gs (sendToGA (fst g) (snd g) w)).
  rewrite IH. apply sendToGA_sink.
Qed.

(** One run of [sendToGA] hands the transport at most one request. *)
Lemma sendToGA_at_most_once (a : Analytics) (eventData : value) (w : World S) :
  outbound (sendToGA a eventData w) = outbound w \/
  exists q : OutRequest, outbound (sendToGA a eventData w) = (outbound w ++ [q])%list.
Proof.
  unfold sendToGA, http_NewRequest.
  destruct (json_Marshal eventData) as [js|err]; [|left; reflexivity].
  destruct (url_Parse _) as [err|]; [left; reflexivity|]. cbn.
  right. eexists.
  destruct (client_Do _) as [resp|err]; [|reflexivity].
  destruct (negb _ && negb _); [|reflexivity].
  destruct (ReadAll (RespBody resp)); reflexivity.
Qed.

(** [sendToGA] once the event is encoded and the URL accepted. *)
Lemma sendToGA_sent (a : Analytics) (eventData : value) (w : World S)
  (js : bytes) :
  let url := EndpointURL a ++ "?measurement_id=" ++ TrackingID a
             ++ "&api_secret=" ++ "YOUR_API_SECRET" in
  let q := mkOutRequest "POST" url
             (http.Header_Set ∅ "Content-Type" "application/json") js in
  json_Marshal eventData = inl js ->
  url_Parse url = None ->
  sendToGA a eventData w =
  match client_Do q with
  | inr err =>
      logged (sent w q) (mkLog ErrorLevel [Err err] "Failed to send analytics data")
  | inl resp =>
      if negb (StatusCode resp =? 200) && negb (StatusCode resp =? 204)
      then logged (sent w q)
             (mkLog ErrorLevel
                [Int "status" (StatusCode resp);
                 Str "response" (string_of (fst (ReadAll (RespBody resp))))]
                "Analytics request failed")
      else sent w q
  end.
Proof.
  intros url q Hjs Hurl. subst q url.
  unfold sendToGA, http_NewRequest, apiSecret.
  rewrite Hjs, Hurl. cbn [oMethod oURL oHeader oBody].
  destruct (client_Do _) as [resp|err]; [|reflexivity].
  destruct (negb _ && negb _); [|reflexivity].
  destruct (ReadAll (RespBody resp)); reflexivity.
Qed.

End Dispatch.

(** The sink after a request does not depend on the runtime. *)
Lemma Handler_sink {E : Runtime} {S : Type} `{RW : ResponseWriter S}
  (a : Analytics) (next : Handler_t) (r : Request) (since : Z) (w : World S) :
  sink (world (Handler a next r since w)) =
  if negb (Enabled a) || String.eqb (TrackingID a) ""
  then run (next r) (sink w)
  else run (next (restoreBody r)) (sink w).
Proof.
  unfold Handler, ServeHTTP.
  destruct (withDefaultEndpoint_switch a) as [-> ->].
  destruct (negb (Enabled a) || String.eqb (TrackingID a) ""); cbn;
    [reflexivity | apply run_inner].
Qed.

Lemma logs_grew {S : Type} (w : World S) (q : OutRequest) (e : LogEntry) :
  logs (logged (sent w q) e) <> logs w.
Proof.
  cbn. intros Heq. apply (f_equal (@length LogEntry)) in Heq.
  rewrite length_app in Heq. cbn in Heq. lia.
Qed.

(** C6: in [sendToGA] an event that cannot be encoded is logged and
    nothing is sent; a transport failure is logged; a collector response is
    passed over in silence exactly when its status is 200 or 204, and any
    other is logged with its status and body; at most one request is ever
    handed to the transport; and the sink is never touched, so the response
    delivered for a request is the same under every runtime. *)
Theorem sendToGA_failures_contained
  {E : Runtime} {S : Type} `{RW : ResponseWriter S}
  (a : Analytics) (next : Handler_t) (r : Request) (since : Z) (w : World S)
  (eventData : value) :
  let url := EndpointURL a ++ "?measurement_id=" ++ TrackingID a
             ++ "&api_secret=" ++ "YOUR_API_SECRET" in
  (forall err : error,
      json_Marshal eventData = inr err ->
      sendToGA a eventData w =
      mkWorld (sink w) (outbound w)
        (logs w ++ [mkLog ErrorLevel [Err err] "Failed to marshal analytics data"])%list) /\
  (forall (js : bytes) (err : error),
      json_Marshal eventData = inl js -> url_Parse url = None ->
      client_Do (mkOutRequest "POST" url
                   (http.Header_Set ∅ "Content-Type" "application/json") js)
        = inr err ->
      logs (sendToGA a eventData w) =
      (logs w ++ [mkLog ErrorLevel [Err err] "Failed to send analytics data"])%list) /\
  (forall (js : bytes) (resp : Response),
      json_Marshal eventData = inl js -> url_Parse url = None ->
      client_Do (mkOutRequest "POST" url
                   (http.Header_Set ∅ "Content-Type" "application/json") js)
        = inl resp ->
      (logs (sendToGA a eventData w) = logs w <->
       StatusCode resp = 200 \/ StatusCode resp = 204) /\
      (~ (StatusCode resp = 200 \/ StatusCode resp = 204) ->
       logs (sendToGA a eventData w) =
       (logs w ++ [mkLog ErrorLevel
                     [Int "status" (StatusCode resp);
                      Str "response" (string_of (fst (ReadAll (RespBody resp))))]
                     "Analytics request failed"])%list)) /\
  (outbound (sendToGA a eventData w) = outbound w \/
   exists q : OutRequest,
     outbound (sendToGA a eventData w) = (outbound w ++ [q])%list) /\
  sink (sendToGA a eventData w) = sink w /\
  (forall E' : Runtime,
      sink (serveAndDispatch (E := E') a next r since w)
      = sink (world (Handler (E := E) a next r since w))).
Proof.
  intros url. subst url. split; [|split; [|split; [|split; [|split]]]].
  - intros err Hjs. unfold sendToGA. rewrite Hjs. reflexivity.
  - intros js err Hjs Hurl Hdo.
    rewrite (sendToGA_sent a eventData w js Hjs Hurl). cbv zeta.
    rewrite Hdo. reflexivity.
  - intros js resp Hjs Hurl Hdo.
    rewrite (sendToGA_sent a eventData w js Hjs Hurl). cbv zeta.
    rewrite Hdo.
    destruct (Z.eqb_spec (StatusCode resp) 200) as [H200|H200];
      [|destruct (Z.eqb_spec (StatusCode resp) 204) as [H204|H204]]; cbn [negb andb].
    + split; [split; [intros _; left; exact H200 | reflexivity]|].
      intros Hno; exfalso; apply Hno; left; exact H200.
    + split; [split; [intros _; right; exact H204 | reflexivity]|].
      intros Hno; exfalso; apply Hno; right; exact H204.
    + split; [|intros _; reflexivity].
      split; [intros Hlogs; exfalso; exact (logs_grew _ _ _ Hlogs)|].
      intros [Hyes|Hyes]; contradiction.
  - apply sendToGA_at_most_once.
  - apply sendToGA_sink.
  - intros E'. unfold serveAndDispatch. cbv zeta. rewrite dispatch_sink.
    rewrite (Handler_sink (E := E')), (Handler_sink (E := E)). reflexivity.
Qed.

Lemma sendToGA_failures_contained_witness :
  let E := collector 500 (bytes_of "oops") in
  let a := mkAnalytics "G-TEST123" true defaultEndpoint in
  let url := defaultEndpoint ++ "?measurement_id=G-TEST123&api_secret=YOUR_API_SECRET" in
  let q := mkOutRequest "POST" url
             (http.Header_Set ∅ "Content-Type" "application/json") (bytes_of "{}") in
  json_Marshal (VMap []) = inl (bytes_of "{}") /\
  url_Parse url = None /\
  client_Do q = inl (mkResponse 500 (NewBuffer (bytes_of "oops"))) /\
  ~ (500 = 200 \/ 500 = 204) /\
  logs (sendToGA a (VMap []) (emptyWorld NewRecorder)) =
  [mkLog ErrorLevel [Int "status" 500; Str "response" "oops"]
     "Analytics request failed"].
Proof.
  intros E a url q.
  assert (~ (500 = 200 \/ 500 = 204)) as Hno by lia.
  repeat (split; [first [reflexivity | exact Hno]|]).
  destruct (sendToGA_failures_contained (E := E) a testHandler testRequest 0
              (emptyWorld NewRecorder) (VMap []))
    as (_ & _ & Hresp & _).
  destruct (Hresp (bytes_of "{}") (mkResponse 500 (NewBuffer (bytes_of "oops")))
              eq_refl eq_refl eq_refl) as [_ Hfail].
  exact (Hfail Hno).
Defined.

(** C7: a request served with tracking on starts one goroutine, whose
    event carries [client_id] and a one-element [events] array named
    ["api_request"] with the six parameters of the request; once that event
    is encoded, the dispatch is one POST to
    endpoint?measurement_id=trackingID&api_secret=secret with header
    [Content-Type: application/json] and the encoding as body. *)
Theorem dispatch_is_one_post
  {E : Runtime} {S : Type} `{RW : ResponseWriter S}
  (a : Analytics) (next : Handler_t) (r : Request) (since : Z) (w : World S)
  (js : bytes) :
  let r' := restoreBody r in
  let status := statusCode (run (next r') (freshWrapper (sink w))) in
  let endpoint := if String.eqb (EndpointURL a) ""
                  then "https://www.google-analytics.com/mp/collect"
                  else EndpointURL a in
  let url := endpoint ++ "?measurement_id=" ++ TrackingID a
             ++ "&api_secret=" ++ "YOUR_API_SECRET" in
  let event :=
    VMap [("client_id", VString (getClientID r));
          ("events", VSlice [
             VMap [("name", VString "api_request");
                   ("params", VMap [
                      ("path", VString (URL_Path r));
                      ("method", VString (Method r));
                      ("status_code", VInt status);
                      ("response_time_ms", VInt (Z.quot since 1000000));
                      ("user_agent", VString (http.Header_Get (Header r) "User-Agent"));
                      ("ip_address", VString (getIPAddress r))])]])] in
  Enabled a = true -> TrackingID a <> "" ->
  json_Marshal event = inl js -> url_Parse url = None ->
  map snd (spawned (Handler a next r since w)) = [event] /\
  outbound (serveAndDispatch a next r since w) =
  (outbound w ++
   [mkOutRequest "POST" url {[ "Content-Type" := ["application/json"] ]} js])%list.
Proof.
  intros r' status endpoint url event He Ht Hjs Hurl.
  assert (eventDataOf r' status (Milliseconds since) = event) as Hevent.
  { subst event r'. unfold eventDataOf, restoreBody.
    destruct (Body r) as [rd|]; [|reflexivity].
    destruct (ReadAll rd) as [data e]; reflexivity. }
  unfold serveAndDispatch. cbv zeta.
  rewrite (Handler_tracking a next r since w He Ht). cbv zeta.
  cbn [spawned world map snd].
  fold r'. fold status. rewrite Hevent. split; [reflexivity|].
  cbn [dispatch fold_left fst snd].
  assert (EndpointURL (withDefaultEndpoint a) = endpoint) as Hend.
  { subst endpoint. unfold withDefaultEndpoint.
    destruct (String.eqb (EndpointURL a) ""); reflexivity. }
  destruct (withDefaultEndpoint_switch a) as [_ Htid].
  match goal with
  | |- context [sendToGA ?a' ?ev ?wd] =>
      pose proof (sendToGA_sent a' ev wd js) as Hsent
  end.
  cbv zeta in Hsent. rewrite Hend, Htid in Hsent.
  rewrite (Hsent Hjs Hurl), contentTypeHeader.
  destruct (client_Do _) as [resp|err]; [|reflexivity].
  destruct (negb _ && negb _); reflexivity.
Qed.

Lemma dispatch_is_one_post_witness :
  let E := collector 204 [] in
  let a := mkAnalytics "G-TEST123" true "" in
  let url := "https://www.google-analytics.com/mp/collect?measurement_id=G-TEST123&api_secret=YOUR_API_SECRET" in
  let event :=
    VMap [("client_id", VString "test-client-id");
          ("events", VSlice [
             VMap [("name", VString "api_request");
                   ("params", VMap [
                      ("path", VString "/test-path");
                      ("method", VString "GET");
                      ("status_code", VInt 200);
                      ("response_time_ms", VInt 51);
                      ("user_agent", VString "Test User Agent");
                      ("ip_address", VString "192.0.2.1")])]])] in
  Enabled a = true /\ TrackingID a <> "" /\
  json_Marshal event = inl (bytes_of (plainJSON event)) /\
  url_Parse url = None /\
  outbound (serveAndDispatch a testHandler testRequest 51234567
              (emptyWorld NewRecorder)) =
  [mkOutRequest "POST" url {[ "Content-Type" := ["application/json"] ]}
     (bytes_of (plainJSON event))].
Proof.
  intros E a url event.
  split; [reflexivity|]. split; [discriminate|].
  split; [reflexivity|]. split; [reflexivity|].
  exact (proj2 (dispatch_is_one_post (E := E) a testHandler testRequest 51234567
                  (emptyWorld NewRecorder) (bytes_of (plainJSON event))
                  eq_refl ltac:(discriminate) eq_refl eq_refl)).
Defined.

(** ** The request body *)

Lemma ReadAll_NewBuffer (data : bytes) : ReadAll (NewBuffer data) = (data, None).
Proof.
  destruct data as [|x data]; [reflexivity|].
  cbn. rewrite app_nil_r. reflexivity.
Qed.

Lemma restoreBody_some (r : Request) (rd : Reader) :
  Body r = Some rd ->
  restoreBody r = setBody r (Some (NewBuffer (fst (ReadAll rd)))).
Proof.
  intros Hb. unfold restoreBody. rewrite Hb.
  destruct (ReadAll rd); reflexivity.
Qed.

(** C8: with tracking on and a body present, the downstream handler is run
    on the request whose body was read to its end and replaced by a buffer
    over the bytes read: reading that body gives the same bytes, and the
    same result altogether when the original ends cleanly; method, path,
    headers and remote address are those of the original request. *)
Theorem body_restored
  {E : Runtime} {S : Type} `{RW : ResponseWriter S}
  (a : Analytics) (next : Handler_t) (r : Request) (since : Z) (w : World S)
  (rd : Reader) :
  Enabled a = true -> TrackingID a <> "" -> Body r = Some rd ->
  exists r' : Request,
    wrapper (Handler a next r since w) = Some (run (next r') (freshWrapper (sink w))) /\
    sink (world (Handler a next r since w)) = run (next r') (sink w) /\
    Body r' = Some (NewBuffer (fst (ReadAll rd))) /\
    (exists rd' : Reader,
        Body r' = Some rd' /\
        fst (ReadAll rd') = fst (ReadAll rd) /\
        (snd (ReadAll rd) = None -> ReadAll rd' = ReadAll rd)) /\
    Method r' = Method r /\ URL_Path r' = URL_Path r /\
    Header r' = Header r /\ RemoteAddr r' = RemoteAddr r.
Proof.
  intros He Ht Hb. exists (restoreBody r).
  rewrite (Handler_tracking a next r since w He Ht). cbn [wrapper world sink logged].
  rewrite run_inner, (restoreBody_some r rd Hb). cbn [setBody Body Method URL_Path Header RemoteAddr inner freshWrapper].
  split; [reflexivity|]. split; [reflexivity|]. split; [reflexivity|].
  split; [|repeat split].
  eexists; split; [reflexivity|].
  rewrite ReadAll_NewBuffer. split; [reflexivity|].
  intros Hclean. destruct (ReadAll rd) as [data e]; cbn in *. subst e; reflexivity.
Qed.

Lemma body_restored_witness :
  let a := mkAnalytics "G-TEST123" true "" in
  Enabled a = true /\ TrackingID a <> "" /\
  Body postRequest = Some (Chunk (bytes_of "hel") (Chunk (bytes_of "lo") EOF)) /\
  exists r' : Request,
    sink (world (Handler (E := collector 200 []) a echoHandler postRequest 0
                   (emptyWorld NewRecorder)))
    = run (echoHandler r') NewRecorder /\
    Body r' = Some (Chunk (bytes_of "hello") EOF) /\
    Method r' = "POST" /\ URL_Path r' = "/v1/track".
Proof.
  intros a. split; [reflexivity|]. split; [discriminate|]. split; [reflexivity|].
  destruct (body_restored (E := collector 200 []) a echoHandler postRequest 0
              (emptyWorld NewRecorder)
              (Chunk (bytes_of "hel") (Chunk (bytes_of "lo") EOF))
              eq_refl ltac:(discriminate) eq_refl)
    as (r' & _ & Hsink & Hbody & _ & Hm & Hp & _).
  exists r'. split; [exact Hsink|]. split; [exact Hbody|].
  split; [exact Hm | exact Hp].
Defined.

(** C10: when reading the request body fails partway, the error is dropped:
    the downstream handler gets a body that holds the bytes read before the
    failure and ends cleanly, the request is served exactly as one whose
    body was that prefix, and the only record logged is the usual one. *)
Theorem body_read_error_discarded
  {E : Runtime} {S : Type} `{RW : ResponseWriter S}
  (a : Analytics) (next : Handler_t) (r : Request) (since : Z) (w : World S)
  (rd : Reader) (data : bytes) (err : error) :
  Enabled a = true -> TrackingID a <> "" ->
  Body r = Some rd -> ReadAll rd = (data, Some err) ->
  let r' := setBody r (Some (NewBuffer data)) in
  restoreBody r = r' /\
  ReadAll (NewBuffer data) = (data, None) /\
  Handler a next r since w = Handler a next r' since w /\
  sink (world (Handler a next r since w)) = run (next r') (sink w) /\
  logs (world (Handler a next r since w)) =
  (logs w ++
   [mkLog InfoLevel
      [Str "path" (URL_Path r); Str "method" (Method r);
       Int "status" (statusCode (run (next r') (freshWrapper (sink w))));
       Int "duration_ms" (Z.quot since 1000000)]
      "Analytics tracking sent"])%list.
Proof.
  intros He Ht Hb Hread r'.
  assert (restoreBody r = r') as Hr.
  { rewrite (restoreBody_some r rd Hb), Hread. reflexivity. }
  assert (restoreBody r' = r') as Hr'.
  { rewrite (restoreBody_some r' (NewBuffer data) eq_refl), ReadAll_NewBuffer.
    reflexivity. }
  split; [exact Hr|]. split; [apply ReadAll_NewBuffer|].
  rewrite (Handler_tracking a next r since w He Ht),
          (Handler_tracking a next r' since w He Ht). cbv zeta.
  rewrite Hr, Hr'. split; [reflexivity|].
  cbn [world sink logs logged]. rewrite run_inner.
  split; reflexivity.
Qed.

Lemma body_read_error_discarded_witness :
  let a := mkAnalytics "G-TEST123" true "" in
  let rw := Handler (E := collector 200 []) a echoHandler brokenRequest 0
              (emptyWorld NewRecorder) in
  Enabled a = true /\ TrackingID a <> "" /\
  Body brokenRequest = Some (Chunk (bytes_of "hel") (Fail "unexpected EOF")) /\
  ReadAll (Chunk (bytes_of "hel") (Fail "unexpected EOF"))
    = (bytes_of "hel", Some "unexpected EOF") /\
  sink (world rw) = mkRecorder 200 ∅ (bytes_of "hel") true /\
  logs (world rw) =
  [mkLog InfoLevel
     [Str "path" "/v1/track"; Str "method" "POST"; Int "status" 200;
      Int "duration_ms" 0]
     "Analytics tracking sent"].
Proof.
  intros a rw. split; [reflexivity|]. split; [discriminate|].
  split; [reflexivity|]. split; [reflexivity|].
  destruct (body_read_error_discarded (E := collector 200 []) a echoHandler
              brokenRequest 0 (emptyWorld NewRecorder)
              (Chunk (bytes_of "hel") (Fail "unexpected EOF"))
              (bytes_of "hel") "unexpected EOF"
              eq_refl ltac:(discriminate) eq_refl eq_refl)
    as (_ & _ & _ & Hsink & Hlogs).
  split; [exact Hsink | exact Hlogs].
Defined.

(** ** The repository's test *)

(** [TestAnalyticsInterceptor]: with tracking disabled the recorder ends
    with status 200 and body ["Test response"]. *)
Example test_AnalyticsInterceptor :
  let recorder :=
    sink (world (Handler (E := unreachable) (mkAnalytics "G-TEST123" false "")
                   testHandler testRequest 0 (emptyWorld NewRecorder))) in
  Code recorder = http.StatusOK /\
  string_of (Written recorder) = "Test response".
Proof. split; reflexivity. Qed.

(** The same handler with tracking on: same response, one record logged,
    one event on its way. *)
Example test_tracking_on :
  let served :=
    Handler (E := unreachable) (mkAnalytics "G-TEST123" true "")
      testHandler testRequest 51234567 (emptyWorld NewRecorder) in
  Code (sink (world served)) = http.StatusOK /\
  string_of (Written (sink (world served))) = "Test response" /\
  length (logs (world served)) = 1%nat /\
  length (spawned served) = 1%nat.
Proof. repeat split. Qed.

(** * Further properties of the plugin *)

(** ** [Handler()]: the endpoint default *)

(** After [Handler()] ran, the endpoint is never empty; running it again
    changes nothing; the tracking ID and the switch are left alone. *)
Theorem Handler_endpoint_settled (a : Analytics) :
  String.eqb (EndpointURL (withDefaultEndpoint a)) "" = false /\
  withDefaultEndpoint (withDefaultEndpoint a) = withDefaultEndpoint a /\
  TrackingID (withDefaultEndpoint a) = TrackingID a /\
  Enabled (withDefaultEndpoint a) = Enabled a.
Proof.
  unfold withDefaultEndpoint.
  destruct (String.eqb (EndpointURL a) "") eqn:Hempty.
  - cbn. repeat split.
  - rewrite Hempty. repeat split.
Qed.

(** The interceptor as the registered creator makes it passes every
    request through: the downstream handler runs on the original request
    and sink, and nothing is captured, started, sent or logged. *)
Theorem new_interceptor_is_inert
  {E : Runtime} {S : Type} `{RW : ResponseWriter S}
  (next : Handler_t) (r : Request) (since : Z) (w : World S) :
  Handler newAnalytics next r since w =
    mkServed (mkWorld (run (next r) (sink w)) (outbound w) (logs w)) [] None /\
  serveAndDispatch newAnalytics next r since w =
    mkWorld (run (next r) (sink w)) (outbound w) (logs w).
Proof. split; reflexivity. Qed.

(** ** Timing *)

(** For a non-negative elapsed time the recorded milliseconds are the
    whole milliseconds elapsed: never negative, never more than the time
    elapsed, and less than one millisecond short of it. *)
Theorem Milliseconds_floor (d : Z) :
  0 <= d ->
  0 <= Milliseconds d /\
  1000000 * Milliseconds d <= d < 1000000 * Milliseconds d + 1000000.
Proof.
  intros Hd. unfold Milliseconds.
  rewrite (Z.quot_div_nonneg d 1000000) by lia.
  pose proof (Z.div_mod d 1000000 ltac:(lia)) as Hdm.
  pose proof (Z.mod_pos_bound d 1000000 ltac:(lia)) as Hm.
  pose proof (Z.div_pos d 1000000 Hd ltac:(lia)) as Hq.
  lia.
Qed.

Lemma Milliseconds_floor_witness :
  0 <= 51234567 /\
  0 <= Milliseconds 51234567 /\
  1000000 * Milliseconds 51234567 <= 51234567
    < 1000000 * Milliseconds 51234567 + 1000000.
Proof.
  split; [lia|]. apply (Milliseconds_floor 51234567). lia.
Defined.

(** A longer elapsed time never records fewer milliseconds. *)
Theorem Milliseconds_monotone (d1 d2 : Z) :
  0 <= d1 -> d1 <= d2 -> Milliseconds d1 <= Milliseconds d2.
Proof.
  intros H1 H12. unfold Milliseconds.
  rewrite (Z.quot_div_nonneg d1 1000000), (Z.quot_div_nonneg d2 1000000) by lia.
  apply Z.div_le_mono; lia.
Qed.

Lemma Milliseconds_monotone_witness :
  0 <= 50000000 /\ 50000000 <= 51234567 /\
  Milliseconds 50000000 <= Milliseconds 51234567.
Proof.
  split; [lia|]. split; [lia|].
  apply (Milliseconds_monotone 50000000 51234567); lia.
Defined.

(** ** Restoring the request body *)

(** Reading and restoring a body a second time changes nothing, so a
    second tracking interceptor down the chain sees what the first one
    left; a restored body always reads to a clean end; and a request
    without a body stays as it is. *)
Theorem restoreBody_idempotent (r : Request) :
  restoreBody (restoreBody r) = restoreBody r /\
  match Body (restoreBody r) with
  | Some rd => snd (ReadAll rd) = None /\ exists rd0, Body r = Some rd0
  | None => restoreBody r = r
  end.
Proof.
  destruct (Body r) as [rd|] eqn:Hb.
  - rewrite (restoreBody_some r rd Hb).
    rewrite (restoreBody_some (setBody r (Some (NewBuffer (fst (ReadAll rd)))))
               (NewBuffer (fst (ReadAll rd))) eq_refl).
    rewrite ReadAll_NewBuffer. cbn [setBody Body fst snd].
    split; [reflexivity|]. rewrite ReadAll_NewBuffer.
    split; [reflexivity | exists rd; reflexivity].
  - unfold restoreBody. rewrite Hb, Hb. split; reflexivity.
Qed.

(** ** The derived address *)

Lemma freeOf_cons (c d : ascii) (s : string) :
  freeOf c (String d s) = negb (Ascii.eqb d c) && freeOf c s.
Proof. reflexivity. Qed.

Lemma before_free (c : ascii) (s : string) : freeOf c (before c s) = true.
Proof.
  induction s as [|d s IH]; [reflexivity|]. cbn [before].
  destruct (Ascii.eqb d c) eqn:Hd; [reflexivity|].
  rewrite freeOf_cons, Hd, IH. reflexivity.
Qed.

Lemma before_prefix (c : ascii) (s : string) :
  strings.HasPrefix s (before c s) = true.
Proof.
  induction s as [|d s IH]; [reflexivity|]. cbn [before].
  destruct (Ascii.eqb d c); [reflexivity|].
  cbn [strings.HasPrefix]. rewrite Ascii.eqb_refl. exact IH.
Qed.

Lemma before_app (c : ascii) (first rest : string) :
  freeOf c first = true ->
  before c (first ++ String c rest) = first.
Proof.
  induction first as [|d first IH]; intros Hfree.
  - change (before c (String c rest) = ""). cbn [before].
    rewrite Ascii.eqb_refl. reflexivity.
  - rewrite freeOf_cons in Hfree. apply andb_prop in Hfree as [Hd Hfree].
    change (before c (String d (first ++ String c rest)) = String d first).
    cbn [before]. apply negb_true_iff in Hd. rewrite Hd, (IH Hfree). reflexivity.
Qed.

Lemma before_whole (c : ascii) (s : string) :
  freeOf c s = true -> before c s = s.
Proof.
  induction s as [|d s IH]; intros Hfree; [reflexivity|].
  rewrite freeOf_cons in Hfree. apply andb_prop in Hfree as [Hd Hfree].
  cbn [before]. apply negb_true_iff in Hd. rewrite Hd, (IH Hfree). reflexivity.
Qed.

(** The address [getIPAddress] returns holds no comma when it comes from a
    forwarding header and no colon when it comes from the remote address,
    and it is always a prefix of the value it was cut from. *)
Theorem getIPAddress_is_cut_prefix (r : Request) :
  match forwardedValue (Header r) with
  | Some v =>
      freeOf ","%char (getIPAddress r) = true /\
      strings.HasPrefix v (getIPAddress r) = true
  | None =>
      freeOf ":"%char (getIPAddress r) = true /\
      strings.HasPrefix (RemoteAddr r) (getIPAddress r) = true
  end.
Proof.
  rewrite getIPAddress_unfold.
  destruct (forwardedValue (Header r)) as [v|];
    (split; [apply before_free | apply before_prefix]).
Qed.

(** Without forwarding headers, a remote address [host:port] whose host
    holds no colon yields exactly the host. *)
Theorem getIPAddress_strips_port (r : Request) (host port : string) :
  forwardedValue (Header r) = None ->
  RemoteAddr r = host ++ ":" ++ port ->
  freeOf ":"%char host = true ->
  getIPAddress r = host.
Proof.
  intros Hnone Haddr Hfree.
  rewrite getIPAddress_unfold, Hnone, Haddr.
  apply (before_app ":"%char host port Hfree).
Qed.

Lemma getIPAddress_strips_port_witness :
  forwardedValue (Header directRequest) = None /\
  RemoteAddr directRequest = "9.9.9.9" ++ ":" ++ "4444" /\
  freeOf ":"%char "9.9.9.9" = true /\
  getIPAddress directRequest = "9.9.9.9".
Proof.
  split; [reflexivity|]. split; [reflexivity|]. split; [reflexivity|].
  apply (getIPAddress_strips_port directRequest "9.9.9.9" "4444"); reflexivity.
Defined.

(** A remote address without any colon is returned whole. *)
Theorem getIPAddress_without_port (r : Request) :
  forwardedValue (Header r) = None ->
  freeOf ":"%char (RemoteAddr r) = true ->
  getIPAddress r = RemoteAddr r.
Proof.
  intros Hnone Hfree. rewrite getIPAddress_unfold, Hnone.
  apply before_whole; exact Hfree.
Qed.

Lemma getIPAddress_without_port_witness :
  let r := mkRequest "GET" "/" ∅ "pipe" None in
  forwardedValue (Header r) = None /\
  freeOf ":"%char (RemoteAddr r) = true /\
  getIPAddress r = "pipe".
Proof.
  intros r. split; [reflexivity|]. split; [reflexivity|].
  apply (getIPAddress_without_port r); reflexivity.
Defined.

(** A non-empty [X-Forwarded-For] decides alone: its first entry is
    returned whatever [X-Real-IP] and the remote address are. *)
Theorem getIPAddress_forwarded_first (r : Request) (first rest : string) :
  http.Header_Get (Header r) "X-Forwarded-For" = first ++ "," ++ rest ->
  freeOf ","%char first = true ->
  getIPAddress r = first.
Proof.
  intros Hxff Hfree.
  rewrite getIPAddress_unfold. unfold forwardedValue. rewrite Hxff.
  assert (String.eqb (first ++ "," ++ rest) "" = false) as ->.
  { destruct first; reflexivity. }
  cbn [negb]. apply (before_app ","%char first rest Hfree).
Qed.

Lemma getIPAddress_forwarded_first_witness :
  http.Header_Get (Header forwardedRequest) "X-Forwarded-For"
    = "1.2.3.4" ++ "," ++ " 5.6.6.6" /\
  freeOf ","%char "1.2.3.4" = true /\
  getIPAddress forwardedRequest = "1.2.3.4".
Proof.
  split; [reflexivity|]. split; [reflexivity|].
  apply (getIPAddress_forwarded_first forwardedRequest "1.2.3.4" " 5.6.6.6");
    reflexivity.
Defined.

(** An absent or empty [X-Forwarded-For] is passed over: a non-empty
    [X-Real-IP] holding a single address is then returned as it is. *)
Theorem getIPAddress_real_ip (r : Request) (v : string) :
  http.Header_Get (Header r) "X-Forwarded-For" = "" ->
  http.Header_Get (Header r) "X-Real-IP" = v ->
  String.eqb v "" = false ->
  freeOf ","%char v = true ->
  getIPAddress r = v.
Proof.
  intros Hxff Hxri Hv Hfree.
  rewrite getIPAddress_unfold. unfold forwardedValue.
  rewrite Hxff, Hxri, Hv. cbn [negb String.eqb].
  apply before_whole; exact Hfree.
Qed.

Lemma getIPAddress_real_ip_witness :
  let r := mkRequest "GET" "/"
             (http.Header_Set (http.Header_Set ∅ "X-Forwarded-For" "")
                              "x-real-ip" "7.7.7.7")
             "[::1]:8080" None in
  http.Header_Get (Header r) "X-Forwarded-For" = "" /\
  http.Header_Get (Header r) "X-Real-IP" = "7.7.7.7" /\
  String.eqb "7.7.7.7" "" = false /\
  freeOf ","%char "7.7.7.7" = true /\
  getIPAddress r = "7.7.7.7".
Proof.
  intros r. repeat (split; [reflexivity|]).
  apply (getIPAddress_real_ip r "7.7.7.7"); reflexivity.
Defined.

(** The index expressions [strings.Split(..)[0]] of [getIPAddress] are in
    range for every header value and every remote address. *)
Theorem getIPAddress_index_in_range (s : string) :
  (exists x rest, strings.Split s "," = x :: rest) /\
  (exists x rest, strings.Split s ":" = x :: rest).
Proof.
  split.
  - destruct (strings.Split s ",") as [|x rest] eqn:Hs.
    + exfalso. apply (splitFrom_cons "," s 0%nat "" Hs).
    + exists x, rest; reflexivity.
  - destruct (strings.Split s ":") as [|x rest] eqn:Hs.
    + exfalso. apply (splitFrom_cons ":" s 0%nat "" Hs).
    + exists x, rest; reflexivity.
Qed.

(** ** What a dispatch can do *)

(** The shape of every effect of [sendToGA]: earlier requests and records
    stay, at most one request and at most one record are added, and the
    record is an error record. *)
Lemma sendToGA_appends {E : Runtime} {S : Type}
  (a : Analytics) (eventData : value) (w : World S) :
  exists (qs : list OutRequest) (es : list LogEntry),
    sendToGA a eventData w =
      mkWorld (sink w) (outbound w ++ qs)%list (logs w ++ es)%list /\
    (length qs <= 1)%nat /\ (length es <= 1)%nat /\
    Forall (fun e => level e = ErrorLevel) es.
Proof.
  unfold sendToGA, http_NewRequest.
  destruct (json_Marshal eventData) as [js|err].
  2:{ exists [], [mkLog ErrorLevel [Err err] "Failed to marshal analytics data"].
      unfold logged. rewrite app_nil_r. repeat split; auto. }
  destruct (url_Parse _) as [err|].
  { exists [], [mkLog ErrorLevel [Err err] "Failed to create analytics request"].
    unfold logged. rewrite app_nil_r. repeat split; auto. }
  cbn [oMethod oURL oHeader oBody].
  destruct (client_Do _) as [resp|err].
  2:{ eexists [_], [_]. unfold logged, sent. cbn [sink outbound logs].
      repeat split; auto. }
  destruct (negb _ && negb _).
  - destruct (ReadAll (RespBody resp)) as [data e].
    eexists [_], [_]. unfold logged, sent. cbn [sink outbound logs].
    repeat split; auto.
  - eexists [_], []. unfold sent. rewrite app_nil_r.
    repeat split; auto.
Qed.

(** [sendToGA] only ever appends: the sink is untouched, requests sent and
    records logged before stay in place, and one run adds at most one
    request and at most one record, which is always an error record (a
    delivered event leaves no record). *)
Theorem sendToGA_only_appends {E : Runtime} {S : Type}
  (a : Analytics) (eventData : value) (w : World S) :
  exists (qs : list OutRequest) (es : list LogEntry),
    sendToGA a eventData w =
      mkWorld (sink w) (outbound w ++ qs)%list (logs w ++ es)%list /\
    (length qs <= 1)%nat /\ (length es <= 1)%nat /\
    Forall (fun e => level e = ErrorLevel) es.
Proof. apply sendToGA_appends. Qed.

(** When [http.NewRequest] rejects the URL, [sendToGA] logs the error and
    hands nothing to the transport. *)
Theorem sendToGA_request_rejected {E : Runtime} {S : Type}
  (a : Analytics) (eventData : value) (w : World S) (js : bytes) (err : error) :
  json_Marshal eventData = inl js ->
  url_Parse (EndpointURL a ++ "?measurement_id=" ++ TrackingID a
             ++ "&api_secret=" ++ "YOUR_API_SECRET") = Some err ->
  sendToGA a eventData w =
  mkWorld (sink w) (outbound w)
    (logs w ++ [mkLog ErrorLevel [Err err] "Failed to create analytics request"])%list.
Proof.
  intros Hjs Hurl. unfold sendToGA, http_NewRequest, apiSecret.
  rewrite Hjs, Hurl. reflexivity.
Qed.

Lemma sendToGA_request_rejected_witness :
  let E := strictURLs in
  let a := mkAnalytics "G TEST" true "http://collector.invalid/ mp" in
  json_Marshal (VMap []) = inl (bytes_of "{}") /\
  url_Parse (EndpointURL a ++ "?measurement_id=" ++ TrackingID a
             ++ "&api_secret=" ++ "YOUR_API_SECRET")
    = Some "parse: invalid URL" /\
  sendToGA a (VMap []) (emptyWorld NewRecorder) =
  mkWorld NewRecorder []
    [mkLog ErrorLevel [Err "parse: invalid URL"] "Failed to create analytics request"].
Proof.
  intros E a. split; [reflexivity|]. split; [reflexivity|].
  apply (sendToGA_request_rejected (E := E) a (VMap []) (emptyWorld NewRecorder)
           (bytes_of "{}") "parse: invalid URL"); reflexivity.
Defined.

(** ** What serving a request leaves in the log and on the wire *)

(** Serving one request and running its dispatch never sends more than one
    request to the collector and never removes a request or a record made
    before, with tracking on or off and whatever the runtime does. *)
Theorem serve_sends_at_most_once
  {E : Runtime} {S : Type} `{RW : ResponseWriter S}
  (a : Analytics) (next : Handler_t) (r : Request) (since : Z) (w : World S) :
  exists (qs : list OutRequest) (es : list LogEntry),
    outbound (serveAndDispatch a next r since w) = (outbound w ++ qs)%list /\
    logs (serveAndDispatch a next r since w) = (logs w ++ es)%list /\
    (length qs <= 1)%nat /\ (length es <= 2)%nat.
Proof.
  unfold serveAndDispatch, Handler, ServeHTTP. cbv zeta.
  destruct (negb (Enabled (withDefaultEndpoint a))
            || String.eqb (TrackingID (withDefaultEndpoint a)) "").
  - exists [], []. cbn. rewrite !app_nil_r. repeat split; auto.
  - cbn [spawned world dispatch fold_left fst snd].
    match goal with
    | |- context [sendToGA ?a' ?ev ?wd] =>
        destruct (sendToGA_appends a' ev wd) as (qs & es & -> & Hq & He & _)
    end.
    exists qs. eexists (_ :: es). cbn [outbound logs logged].
    rewrite <- app_assoc. cbn [app].
    repeat split; [exact Hq | cbn; lia].
Qed.

(** With tracking on, once the downstream handler has returned the
    handler logs the record ["Analytics tracking sent"] for every request,
    whatever the runtime does; when the dispatch has run as well, the log
    holds the earlier records, this record and at most one error record of
    [sendToGA], in an order the code does not fix. *)
Theorem tracking_record_always_logged
  {E : Runtime} {S : Type} `{RW : ResponseWriter S}
  (a : Analytics) (next : Handler_t) (r : Request) (since : Z) (w : World S) :
  Enabled a = true -> TrackingID a <> "" ->
  let record :=
    mkLog InfoLevel
      [Str "path" (URL_Path r); Str "method" (Method r);
       Int "status"
         (statusCode (run (next (restoreBody r)) (freshWrapper (sink w))));
       Int "duration_ms" (Z.quot since 1000000)]
      "Analytics tracking sent" in
  logs (world (Handler a next r since w)) = (logs w ++ [record])%list /\
  exists es : list LogEntry,
    Permutation (logs (serveAndDispatch a next r since w))
                (logs w ++ record :: es)%list /\
    (length es <= 1)%nat /\
    Forall (fun e => level e = ErrorLevel) es.
Proof.
  intros He Ht record.
  assert (forall x : Request, URL_Path (restoreBody x) = URL_Path x
                              /\ Method (restoreBody x) = Method x) as Hframe.
  { intros x. unfold restoreBody. destruct (Body x) as [rd|]; [|split; reflexivity].
    destruct (ReadAll rd); split; reflexivity. }
  unfold serveAndDispatch. cbv zeta.
  rewrite (Handler_tracking a next r since w He Ht). cbv zeta.
  cbn [spawned world dispatch fold_left fst snd].
  destruct (Hframe r) as [-> ->]. fold record.
  split; [reflexivity|].
  match goal with
  | |- context [sendToGA ?a' ?ev ?wd] =>
      destruct (sendToGA_appends a' ev wd) as (qs & es & -> & _ & Hlen & Herr)
  end.
  exists es. cbn [logs logged]. rewrite <- app_assoc. cbn [app].
  split; [reflexivity|]. split; assumption.
Qed.

Lemma tracking_record_always_logged_witness :
  let a := mkAnalytics "G-TEST123" true "" in
  let record :=
    mkLog InfoLevel
      [Str "path" "/test-path"; Str "method" "GET"; Int "status" 200;
       Int "duration_ms" 51]
      "Analytics tracking sent" in
  Enabled a = true /\ TrackingID a <> "" /\
  logs (world (Handler (E := unreachable) a testHandler testRequest 51234567
                 (emptyWorld NewRecorder))) = [record] /\
  exists es : list LogEntry,
    Permutation
      (logs (serveAndDispatch (E := unreachable) a testHandler testRequest
               51234567 (emptyWorld NewRecorder)))
      (record :: es) /\
    (length es <= 1)%nat.
Proof.
  intros a record. split; [reflexivity|]. split; [discriminate|].
  destruct (tracking_record_always_logged (E := unreachable) a testHandler
              testRequest 51234567 (emptyWorld NewRecorder)
              eq_refl ltac:(discriminate))
    as (Hown & es & Hperm & Hlen & _).
  split; [exact Hown|].
  exists es. split; [exact Hperm | exact Hlen].
Defined.

(** ** Capture against delivery *)

Lemma calls_inner {S : Type} `{RW : ResponseWriter S} (cs : list Call) :
  forall rw : responseWriter S, inner (calls cs rw) = calls cs (inner rw).
Proof.
  induction cs as [|c cs IH]; intros rw; [reflexivity|].
  change (calls (c :: cs) rw) with (calls cs (call rw c)).
  change (calls (c :: cs) (inner rw)) with (calls cs (call (inner rw) c)).
  rewrite IH. f_equal.
  destruct c as [code|b|key val]; cbn; try reflexivity.
  rewrite Write_unfold; reflexivity.
Qed.

(** On a sink that takes every write whole, the capture buffer holds, after
    any downstream handler, exactly the bytes the sink was given during the
    request: nothing more, nothing less, in the same order. *)
Theorem capture_matches_delivery
  {S : Type} `{RW : ResponseWriter S} (received : S -> bytes)
  (p : HandlerProg) (s : S) :
  (forall (s0 : S) (b : bytes),
      received (fst (rwWrite s0 b)) = (received s0 ++ b)%list) ->
  (forall (s0 : S) (code : Z), received (rwWriteHeader s0 code) = received s0) ->
  (forall (s0 : S) (key val : string),
      received (rwSetHeader s0 key val) = received s0) ->
  received (inner (run p (freshWrapper s))) =
  (received s ++ body (run p (freshWrapper s)))%list.
Proof.
  intros Hwrite Hcode Hset.
  assert (forall (cs : list Call) (s0 : S),
             received (calls cs s0) = (received s0 ++ written cs)%list) as Hcalls.
  { induction cs as [|c cs IH]; intros s0.
    - cbn. rewrite app_nil_r; reflexivity.
    - change (calls (c :: cs) s0) with (calls cs (call s0 c)).
      rewrite IH. destruct c as [code|b|key val]; cbn [call written].
      + rewrite Hcode; reflexivity.
      + rewrite Hwrite, <- app_assoc; reflexivity.
      + rewrite Hset; reflexivity. }
  rewrite run_calls, calls_inner, Hcalls.
  rewrite (calls_body _ (freshWrapper s)). reflexivity.
Qed.

Lemma capture_matches_delivery_witness :
  (forall (s0 : Recorder) (b : bytes),
      Written (fst (rwWrite s0 b)) = (Written s0 ++ b)%list) /\
  (forall (s0 : Recorder) (code : Z), Written (rwWriteHeader s0 code) = Written s0) /\
  (forall (s0 : Recorder) (key val : string),
      Written (rwSetHeader s0 key val) = Written s0) /\
  Written (inner (run (testHandler testRequest) (freshWrapper NewRecorder))) =
  (Written NewRecorder ++
   body (run (testHandler testRequest) (freshWrapper NewRecorder)))%list.
Proof.
  assert (forall (s0 : Recorder) (b : bytes),
             Written (fst (rwWrite s0 b)) = (Written s0 ++ b)%list) as Hwrite.
  { intros [code hm wr wh] b. destruct wh; reflexivity. }
  assert (forall (s0 : Recorder) (code : Z),
             Written (rwWriteHeader s0 code) = Written s0) as Hcode.
  { intros [code0 hm wr wh] code. destruct wh; reflexivity. }
  assert (forall (s0 : Recorder) (key val : string),
             Written (rwSetHeader s0 key val) = Written s0) as Hset.
  { intros s0 key val; reflexivity. }
  split; [exact Hwrite|]. split; [exact Hcode|]. split; [exact Hset|].
  exact (capture_matches_delivery Written (testHandler testRequest) NewRecorder
           Hwrite Hcode Hset).
Defined.
